(** * Thermal calculations for flat insulation sheets

    Shallow embedding of [src/utils/sheets.ts] and the properties of its six
    exported functions.  The file is embedded twice.

    Exact embedding.  Every finite double is a rational, so numbers are
    embedded as [Q] and the arithmetic operators as the exact operations of
    [Q]: the formulas the program evaluates, without their rounding.  A
    division whose divisor is zero yields an infinity or NaN in JavaScript,
    none of which is a rational; [Js.div] reports that case instead of
    inventing a value.  Arguments are finite numbers throughout.  Equality
    of computed numbers is [Qeq] ([==]).  This embedding carries the
    statements on the interpolation policy, on the formulas and on the
    search, whose content is arithmetic over the reals.

    Binary64 embedding (module [B64]).  Numbers are the primitive binary64
    floats and every operator is the IEEE operation, with its rounding,
    overflow, NaN and signed zeros; the lookup of a material sees the members
    of [Object.prototype].  It carries the statements on which of the tests
    of the program fire, which exception is thrown and which branch is
    taken. *)

From Stdlib Require Import QArith Qround Qabs Qminmax ZArith.
From Stdlib Require Import String List Bool Lia Lqa Psatz SetoidList.
From Stdlib Require Floats.
Import ListNotations.
Open Scope Q_scope.

(** ** Outcomes of a call *)

(** One constructor per [throw new Error(...)] of the source file; the two
    messages of [calculateMinimumSheetThickness] quote the offending values. *)
Inductive Exn : Type :=
| ErrH                                       (* h must be positive *)
| ErrThickness                               (* thickness must be positive *)
| ErrLambda                                  (* lambda must be positive *)
| ErrArea                                    (* area must be positive *)
| ErrDewPoint (dewPoint ambientTemp : Q)     (* dew point not below ambient *)
| ErrTarget (targetSurfaceTemp ambientTemp : Q). (* target above ambient *)

(** The source throws plain [Error] objects that differ only in their
    message.  The two error kinds are the grouping of those messages used by
    the error-handling section of the specification. *)
Inductive ErrorKind : Type := InvalidInput | PhysicallyImpossible.

Definition kind_of (e : Exn) : ErrorKind :=
  match e with
  | ErrH | ErrThickness | ErrLambda | ErrArea => InvalidInput
  | ErrDewPoint _ _ | ErrTarget _ _ => PhysicallyImpossible
  end.

Inductive Outcome (A : Type) : Type :=
| Return (a : A)          (* normal completion *)
| Throw (e : Exn)         (* an exception reached the caller *)
| NotFinite               (* a number left the rationals (NaN, infinity) *)
| OutOfFuel.              (* the loop budget of the model was exhausted *)

Arguments Return {A} a.
Arguments Throw {A} e.
Arguments NotFinite {A}.
Arguments OutOfFuel {A}.

Definition bind {A B : Type} (m : Outcome A) (k : A -> Outcome B) : Outcome B :=
  match m with
  | Return a => k a
  | Throw e => Throw e
  | NotFinite => NotFinite
  | OutOfFuel => OutOfFuel
  end.

Notation "x <- m ;; k" := (bind m (fun x => k))
  (at level 61, m at next level, right associativity).

(** [raises m k]: the call ended with an exception of kind [k]. *)
Definition raises {A : Type} (m : Outcome A) (k : ErrorKind) : Prop :=
  exists e, m = Throw e /\ kind_of e = k.

(** ** JavaScript number primitives *)

Module Js.

Definition le (x y : Q) : bool := Qle_bool x y.           (* x <= y *)
Definition lt (x y : Q) : bool := negb (Qle_bool y x).    (* x < y *)
Definition ge (x y : Q) : bool := le y x.                 (* x >= y *)
Definition gt (x y : Q) : bool := lt y x.                 (* x > y *)

(** [x / y] with a divisor that is not a literal. *)
Definition div (x y : Q) : Outcome Q :=
  if Qeq_bool y 0 then NotFinite else Return (x / y).

(** [Math.abs], [Math.max], [Math.ceil]. *)
Definition abs (x : Q) : Q := Qabs x.
Definition max (x y : Q) : Q := Qmax x y.
Definition ceil (x : Q) : Q := inject_Z (Qceiling x).

(** [Number(x.toFixed(2))]: the nearest multiple of 1/100; of two equally
    near ones [toFixed] takes the larger in magnitude. *)
Definition toFixed2 (x : Q) : Q :=
  let n := Qfloor (Qabs x * 100 + 0.5) in
  if lt x 0 then inject_Z (- n) / 100 else inject_Z n / 100.

End Js.

(** ** NominalThicknessRounder *)

Definition getNominalSheetThicknessRecommendation (minimumThickness : Q) : Q :=
  if Js.gt minimumThickness 37.99 then 50 else
  if Js.gt minimumThickness 29.99 then 40 else
  if Js.gt minimumThickness 22.99 then 32 else
  if Js.gt minimumThickness 16.99 then 25 else
  if Js.gt minimumThickness 10.99 then 19 else
  if Js.gt minimumThickness 7 then 13 else
  if Js.gt minimumThickness 4.99 then 9 else
  6.

(** ** Material table

    [SHEET_MATERIALS] lives in [./constants], which is not part of the
    verified file; it is a parameter of everything below.  Only the [lambda]
    field of a material is read: an object from temperature keys to
    conductivities.  The object is embedded as an association list whose keys
    are the numbers the key strings denote, so that [String(t) in lambdaData]
    is a search for a key equal to [t]. *)

Definition LambdaData : Type := list (Q * Q).

Record Material : Type := { lambda : LambdaData }.

Definition MaterialTable : Type := string -> option Material.

(** [Object.keys(lambdaData).map(Number)] *)
Definition keys (lambdaData : LambdaData) : list Q := map fst lambdaData.

(** [lambdaData[String(t)]], [None] standing for [undefined]. *)
Definition lookup (lambdaData : LambdaData) (t : Q) : option Q :=
  option_map snd (find (fun kv => Qeq_bool (fst kv) t) lambdaData).

(** [.sort((a, b) => a - b)]: ascending numeric order. *)
Fixpoint insert_sorted (x : Q) (l : list Q) : list Q :=
  match l with
  | [] => [x]
  | y :: l' => if Js.le x y then x :: l else y :: insert_sorted x l'
  end.

Definition sort_ascending (l : list Q) : list Q := fold_right insert_sorted [] l.

(** A number read from a possibly missing property: arithmetic on
    [undefined] gives NaN. *)
Definition number_of (o : option Q) : Outcome Q :=
  match o with Some x => Return x | None => NotFinite end.

(** The [for] loop of [interpolateSheetLambda] over [temps[i]], [temps[i+1]];
    [current] is the value of the variable [lambda] on entry. *)
Fixpoint interpolate_loop (lambdaData : LambdaData) (temp : Q) (temps : list Q)
    (current : Q) : Outcome Q :=
  match temps with
  | t0 :: ((t1 :: _) as rest) =>
      if Js.ge temp t0 && Js.le temp t1 then
        l0 <- number_of (lookup lambdaData t0) ;;
        l1 <- number_of (lookup lambdaData t1) ;;
        r <- Js.div ((l1 - l0) * (temp - t0)) (t1 - t0) ;;
        Return (l0 + r)
      else interpolate_loop lambdaData temp rest current
  | _ => Return current
  end.

(** [getFlatU]: no material table involved. *)
Definition getFlatU (h thicknessMm lam : Q) : Outcome Q :=
  if Js.le h 0 then Throw ErrH else
  if Js.le thicknessMm 0 then Throw ErrThickness else
  if Js.le lam 0 then Throw ErrLambda else
  R_conv <- Js.div 1 h ;;
  R_ins <- Js.div (thicknessMm / 1000) lam ;;
  let R_total := R_conv + R_ins in
  Js.div 1 R_total.

(** Result object of [computeSheetHeatLoss].  The source field [Q] is named
    [heatFlow] here, [Q] being the type of rationals.  [decrease] is the one
    field that valid inputs can make NaN (0/0 when both temperatures agree);
    it keeps the outcome of its division. *)
Record HeatLoss : Type := {
  meanLambda : Q;
  U : Q;
  heatFlow : Q;
  decrease : Outcome Q;
  costPerHour : Q
}.

Definition candidates : list Q := [6; 9; 10; 13; 19; 25; 32; 40; 50].

(** The [for (const t of candidates)] loop of [getRecommendedSheetThickness];
    [Return None] when the loop ends without returning. *)
Fixpoint candidates_loop (h lam deltaT targetHeatFluxWPerM2 : Q) (cs : list Q)
    : Outcome (option Q) :=
  match cs with
  | [] => Return None
  | t :: cs' =>
      U <- getFlatU h t lam ;;
      let q := U * deltaT in
      if Js.le q targetHeatFluxWPerM2 then Return (Some t)
      else candidates_loop h lam deltaT targetHeatFluxWPerM2 cs'
  end.

(** The closure [surfaceTempAt] of [calculateMinimumSheetThickness], with the
    variables it captures as leading arguments. *)
Definition surfaceTempAt (ambientTemp mediumTemp lam R_conv : Q) (thicknessMm : Q)
    : Outcome Q :=
  R_ins <- Js.div (thicknessMm / 1000) lam ;;
  let R_total := R_ins + R_conv in
  q <- Js.div (mediumTemp - ambientTemp) R_total ;;
  Return (ambientTemp + q * R_conv).

(** The [while (hi - lo > step)] loop; it returns the final [hi].  [fuel]
    bounds the number of iterations of the model. *)
Fixpoint bisect (fuel : nat) (T : Q -> Outcome Q) (targetSurfaceTemp step : Q)
    (lo hi : Q) : Outcome Q :=
  if Js.gt (hi - lo) step then
    match fuel with
    | O => OutOfFuel
    | S fuel' =>
        let mid := (lo + hi) / 2 in
        tMid <- T mid ;;
        if Js.ge tMid targetSurfaceTemp
        then bisect fuel' T targetSurfaceTemp step lo mid
        else bisect fuel' T targetSurfaceTemp step mid hi
    end
  else Return hi.

(** Default values of the optional parameters. *)
Definition default_targetHeatFluxWPerM2 : Q := 15.
Definition default_safetyMarginC : Q := 0.3.

Section Sheets.

Variable SHEET_MATERIALS : MaterialTable.

(** [Math.pow]: its results are doubles, hence rationals, but not the exact
    power; the properties below hold for whatever it returns. *)
Variable Math_pow : Q -> Q -> Q.

Definition interpolateSheetLambda (temp : Q) (material : string) : Outcome Q :=
  match SHEET_MATERIALS material with
  | None => Return 0.036
  | Some materialData =>
      let lambdaData := lambda materialData in
      let temps := sort_ascending (keys lambdaData) in
      match lookup lambdaData temp with
      | Some l => Return l
      | None =>
          let lam :=
            match temps with
            | [] => 0.036
            | t :: _ =>
                match lookup lambdaData t with Some l => l | None => 0.036 end
            end in
          interpolate_loop lambdaData temp temps lam
      end
  end.

Definition computeSheetHeatLoss
    (ambientTemp mediumTemp thicknessMm areaM2 : Q) (material : string)
    (h costPerKWh : Q) : Outcome HeatLoss :=
  if Js.le areaM2 0 then Throw ErrArea else
  if Js.le thicknessMm 0 then Throw ErrThickness else
  if Js.le h 0 then Throw ErrH else
  let lambdaTemp := ambientTemp + 5 in
  lam <- interpolateSheetLambda lambdaTemp material ;;
  U <- getFlatU h thicknessMm lam ;;
  let deltaT := Js.abs (mediumTemp - ambientTemp) in
  let Q := U * areaM2 * deltaT in
  let deltaT_for_h := Js.abs (mediumTemp - ambientTemp) in
  let alpha_conv_raw := 1.32 * Math_pow deltaT_for_h 0.33 in
  let alpha_conv := Js.max alpha_conv_raw (1 / 0.13) in
  let epsilon := 0.93 in
  let alpha_rad_q0 := epsilon * 1.428 in
  let h0 := alpha_conv + alpha_rad_q0 in
  let U0 := h0 in
  let Q0 := U0 * areaM2 * deltaT in
  let decrease := (d <- Js.div (Q0 - Q) Q0 ;; Return (d * 100)) in
  let costPerHour := (Q / 1000) * costPerKWh in
  Return {| meanLambda := lam; U := U; heatFlow := Q;
            decrease := decrease; costPerHour := costPerHour |}.

Definition getRecommendedSheetThickness
    (ambientTemp mediumTemp _areaM2 : Q) (material : string)
    (h targetHeatFluxWPerM2 : Q) : Outcome Q :=
  lam <- interpolateSheetLambda ambientTemp material ;;
  let deltaT := Js.abs (mediumTemp - ambientTemp) in
  found <- candidates_loop h lam deltaT targetHeatFluxWPerM2 candidates ;;
  match found with
  | Some t => Return t
  | None => number_of (nth_error candidates (length candidates - 1))
  end.

Definition calculateMinimumSheetThickness (fuel : nat)
    (ambientTemp mediumTemp dewPoint : Q) (material : string)
    (h safetyMarginC : Q) : Outcome Q :=
  if Js.le h 0 then Throw ErrH else
  if Js.ge dewPoint ambientTemp then Throw (ErrDewPoint dewPoint ambientTemp) else
  let targetSurfaceTemp := dewPoint + safetyMarginC in
  if Js.gt targetSurfaceTemp ambientTemp
  then Throw (ErrTarget targetSurfaceTemp ambientTemp) else
  let meanTemp := (ambientTemp + mediumTemp) / 2 in
  lam <- interpolateSheetLambda meanTemp material ;;
  R_conv <- Js.div 1 h ;;
  let surfaceTempAt := surfaceTempAt ambientTemp mediumTemp lam R_conv in
  let minMm := 0.01 in
  let maxMm := 100 in
  let step := 0.01 in
  tMax <- surfaceTempAt maxMm ;;
  if Js.lt tMax targetSurfaceTemp then Return 50 else
  let lo := minMm in
  let hi := maxMm in
  hi' <- bisect fuel surfaceTempAt targetSurfaceTemp step lo hi ;;
  let roundedUp := Js.ceil (hi' / step) * step in
  Return (Js.toFixed2 roundedUp).

End Sheets.

(** ** Predicates used in the statements *)


(** The keys of an object are pairwise distinct. *)
Fixpoint distinct_keys (l : list Q) : bool :=
  match l with
  | [] => true
  | k :: rest => negb (existsb (Qeq_bool k) rest) && distinct_keys rest
  end.

(** [lower_bound b l]: [b] is below every element of [l]. *)
Definition lower_bound (b : Q) (l : list Q) : Prop := forall x, In x l -> b <= x.

(** [upper_bound b l]: [b] is above every element of [l]. *)
Definition upper_bound (b : Q) (l : list Q) : Prop := forall x, In x l -> x <= b.

Inductive ascending : list Q -> Prop :=
| ascending_nil : ascending []
| ascending_cons x l : lower_bound x l -> ascending l -> ascending (x :: l).

(** The flat-wall formula in the words of the specification:
    [R_total = 1/h + (thicknessMm/1000)/lambda], [U = 1/R_total]. *)
Definition flatU_formula (h thicknessMm lam : Q) : Q :=
  1 / (1 / h + (thicknessMm / 1000) / lam).

(** The number the closure [surfaceTempAt] computes when neither of its
    divisors is zero. *)
Definition surfaceTemp_value (ambientTemp mediumTemp lam R_conv thicknessMm : Q) : Q :=
  ambientTemp
  + (mediumTemp - ambientTemp) / ((thicknessMm / 1000) / lam + R_conv) * R_conv.

(** A small table on which the functions are run: one material with three
    anchors, listed out of order as an object may list them. *)
Definition sample_materials : MaterialTable :=
  fun material =>
    if String.eqb material "rubber"
    then Some {| lambda := [(40, 0.040); (0, 0.034); (20, 0.036)] |}
    else None.

(** * The functions over binary64

    The second embedding keeps the arithmetic of the program: numbers are
    binary64 values ([PrimFloat.float], round to nearest even, with NaN, the
    infinities and signed zeros) and every operator is the IEEE operation.
    It also keeps what the lookup of a material can find on the prototype
    chain.  Statements whose truth depends on rounding, on overflow or on
    the members of [Object.prototype] are made on this embedding. *)

Module B64.

Import PrimFloat.
#[local] Set Warnings "-inexact-float".
Local Open Scope float_scope.

(** [TypeError] is the exception of the runtime for [Object.keys(undefined)];
    the others are the [throw new Error(...)] of the source file. *)
Inductive Exn : Type :=
| TypeError
| ErrH
| ErrThickness
| ErrLambda
| ErrArea
| ErrDewPoint (dewPoint ambientTemp : float)
| ErrTarget (targetSurfaceTemp ambientTemp : float).

(** The kinds of the specification; a [TypeError] has none. *)
Definition kind_of (e : Exn) : option ErrorKind :=
  match e with
  | TypeError => None
  | ErrH | ErrThickness | ErrLambda | ErrArea => Some InvalidInput
  | ErrDewPoint _ _ | ErrTarget _ _ => Some PhysicallyImpossible
  end.

Inductive Outcome (A : Type) : Type :=
| Return (a : A)
| Throw (e : Exn)
| OutOfFuel.

Arguments Return {A} a.
Arguments Throw {A} e.
Arguments OutOfFuel {A}.

Definition bind {A B : Type} (m : Outcome A) (k : A -> Outcome B) : Outcome B :=
  match m with
  | Return a => k a
  | Throw e => Throw e
  | OutOfFuel => OutOfFuel
  end.

Declare Scope b64_scope.
Notation "x <- m ;; k" := (bind m (fun x => k))
  (at level 61, m at next level, right associativity) : b64_scope.
Local Open Scope b64_scope.

Definition raises {A : Type} (m : Outcome A) (k : ErrorKind) : Prop :=
  exists e, m = Throw e /\ kind_of e = Some k.

(** Library functions of the runtime that the primitive floats do not
    provide.  They are total functions and nothing is assumed of them,
    except that [js_String] renders a number (so its result is never the
    name of a member of [Object.prototype]). *)
Record Builtins : Type := {
  js_String : float -> string;             (* String(x) *)
  js_Number : string -> float;             (* Number(s) *)
  Math_pow : float -> float -> float;
  Math_max : float -> float -> float;
  Math_ceil : float -> float;
  toFixed : float -> nat -> string         (* x.toFixed(digits) *)
}.

(** [lambdaData]: an object from key strings to numbers, as the list of its
    own properties. *)
Definition LambdaData : Type := list (string * float).

Record Material : Type := { lambda : LambdaData }.

(** The own properties of [SHEET_MATERIALS], an object literal of
    [./constants]. *)
Definition MaterialTable : Type := string -> option Material.

(** The property names every object literal inherits from
    [Object.prototype]; each holds a function or an object, so it is truthy,
    and none has a property [lambda]. *)
Definition Object_prototype_names : list string :=
  [ "constructor"; "hasOwnProperty"; "isPrototypeOf"; "propertyIsEnumerable";
    "toLocaleString"; "toString"; "valueOf"; "__proto__";
    "__defineGetter__"; "__defineSetter__"; "__lookupGetter__";
    "__lookupSetter__" ]%string.

(** What [SHEET_MATERIALS[material]] evaluates to. *)
Inductive MaterialData : Type :=
| Undefined                  (* no such property: falsy *)
| Inherited                  (* a member of Object.prototype *)
| Own (m : Material).

Definition get_material (SHEET_MATERIALS : MaterialTable) (material : string)
    : MaterialData :=
  match SHEET_MATERIALS material with
  | Some m => Own m
  | None =>
      if existsb (String.eqb material) Object_prototype_names
      then Inherited else Undefined
  end.

(** [lambdaData[key]], [None] standing for [undefined]; [key in lambdaData]
    is [lambdaData[key]] being found. *)
Definition get (lambdaData : LambdaData) (key : string) : option float :=
  option_map snd (find (fun kv => String.eqb (fst kv) key) lambdaData).

(** A property read into arithmetic: [undefined] behaves as NaN. *)
Definition number_of (o : option float) : float :=
  match o with Some x => x | None => nan end.

(** [.sort((a, b) => a - b)]: the stable sort of the library, driven by the
    sign of [a - b]. *)
Fixpoint insert_sorted (x : float) (l : list float) : list float :=
  match l with
  | [] => [x]
  | y :: l' => if 0 <? x - y then y :: insert_sorted x l' else x :: l
  end.

Definition sort_ascending (l : list float) : list float :=
  fold_right insert_sorted [] l.

Section WithBuiltins.

Variable js : Builtins.

(** The [for] loop of [interpolateSheetLambda]; [current] is the value of
    the variable [lambda] on entry. *)
Fixpoint interpolate_loop (lambdaData : LambdaData) (temp : float)
    (temps : list float) (current : float) : float :=
  match temps with
  | t0 :: ((t1 :: _) as rest) =>
      if (t0 <=? temp) && (temp <=? t1) then
        let l0 := number_of (get lambdaData (js_String js t0)) in
        let l1 := number_of (get lambdaData (js_String js t1)) in
        l0 + (l1 - l0) * (temp - t0) / (t1 - t0)
      else interpolate_loop lambdaData temp rest current
  | _ => current
  end.

Definition interpolateSheetLambda (SHEET_MATERIALS : MaterialTable)
    (temp : float) (material : string) : Outcome float :=
  match get_material SHEET_MATERIALS material with
  | Undefined => Return 0.036
  | Inherited => Throw TypeError
  | Own materialData =>
      let lambdaData := lambda materialData in
      let temps := sort_ascending (map (fun kv => js_Number js (fst kv)) lambdaData) in
      match get lambdaData (js_String js temp) with
      | Some l => Return l
      | None =>
          let lam :=
            match temps with
            | [] => 0.036
            | t :: _ =>
                match get lambdaData (js_String js t) with
                | Some l => l
                | None => 0.036
                end
            end in
          Return (interpolate_loop lambdaData temp temps lam)
      end
  end.

End WithBuiltins.

Definition getFlatU (h thicknessMm lam : float) : Outcome float :=
  if h <=? 0 then Throw ErrH else
  if thicknessMm <=? 0 then Throw ErrThickness else
  if lam <=? 0 then Throw ErrLambda else
  let R_conv := 1 / h in
  let R_ins := (thicknessMm / 1000) / lam in
  let R_total := R_conv + R_ins in
  Return (1 / R_total).

Record HeatLoss : Type := {
  meanLambda : float;
  U : float;
  heatFlow : float;
  decrease : float;
  costPerHour : float
}.

Definition candidates : list float := [6; 9; 10; 13; 19; 25; 32; 40; 50].

Fixpoint candidates_loop (h lam deltaT targetHeatFluxWPerM2 : float)
    (cs : list float) : Outcome (option float) :=
  match cs with
  | [] => Return None
  | t :: cs' =>
      U <- getFlatU h t lam ;;
      let q := U * deltaT in
      if q <=? targetHeatFluxWPerM2 then Return (Some t)
      else candidates_loop h lam deltaT targetHeatFluxWPerM2 cs'
  end.

Definition surfaceTempAt (ambientTemp mediumTemp lam R_conv : float)
    (thicknessMm : float) : float :=
  let R_ins := (thicknessMm / 1000) / lam in
  let R_total := R_ins + R_conv in
  let q := (mediumTemp - ambientTemp) / R_total in
  ambientTemp + q * R_conv.

Fixpoint bisect (fuel : nat) (T : float -> float) (targetSurfaceTemp step : float)
    (lo hi : float) : Outcome float :=
  if step <? hi - lo then
    match fuel with
    | O => OutOfFuel
    | S fuel' =>
        let mid := (lo + hi) / 2 in
        let tMid := T mid in
        if targetSurfaceTemp <=? tMid
        then bisect fuel' T targetSurfaceTemp step lo mid
        else bisect fuel' T targetSurfaceTemp step mid hi
    end
  else Return hi.

Section Sheets.

Variable js : Builtins.
Variable SHEET_MATERIALS : MaterialTable.

Definition computeSheetHeatLoss
    (ambientTemp mediumTemp thicknessMm areaM2 : float) (material : string)
    (h costPerKWh : float) : Outcome HeatLoss :=
  if areaM2 <=? 0 then Throw ErrArea else
  if thicknessMm <=? 0 then Throw ErrThickness else
  if h <=? 0 then Throw ErrH else
  let lambdaTemp := ambientTemp + 5 in
  lam <- interpolateSheetLambda js SHEET_MATERIALS lambdaTemp material ;;
  U <- getFlatU h thicknessMm lam ;;
  let deltaT := abs (mediumTemp - ambientTemp) in
  let Q := U * areaM2 * deltaT in
  let deltaT_for_h := abs (mediumTemp - ambientTemp) in
  let alpha_conv_raw := 1.32 * Math_pow js deltaT_for_h 0.33 in
  let alpha_conv := Math_max js alpha_conv_raw (1 / 0.13) in
  let epsilon := 0.93 in
  let alpha_rad_q0 := epsilon * 1.428 in
  let h0 := alpha_conv + alpha_rad_q0 in
  let U0 := h0 in
  let Q0 := U0 * areaM2 * deltaT in
  let decrease := ((Q0 - Q) / Q0) * 100 in
  let costPerHour := (Q / 1000) * costPerKWh in
  Return {| meanLambda := lam; U := U; heatFlow := Q;
            decrease := decrease; costPerHour := costPerHour |}.

Definition getRecommendedSheetThickness
    (ambientTemp mediumTemp _areaM2 : float) (material : string)
    (h targetHeatFluxWPerM2 : float) : Outcome float :=
  lam <- interpolateSheetLambda js SHEET_MATERIALS ambientTemp material ;;
  let deltaT := abs (mediumTemp - ambientTemp) in
  found <- candidates_loop h lam deltaT targetHeatFluxWPerM2 candidates ;;
  match found with
  | Some t => Return t
  | None => Return (nth (length candidates - 1) candidates nan)
  end.

Definition calculateMinimumSheetThickness (fuel : nat)
    (ambientTemp mediumTemp dewPoint : float) (material : string)
    (h safetyMarginC : float) : Outcome float :=
  if h <=? 0 then Throw ErrH else
  if ambientTemp <=? dewPoint then Throw (ErrDewPoint dewPoint ambientTemp) else
  let targetSurfaceTemp := dewPoint + safetyMarginC in
  if ambientTemp <? targetSurfaceTemp
  then Throw (ErrTarget targetSurfaceTemp ambientTemp) else
  let meanTemp := (ambientTemp + mediumTemp) / 2 in
  lam <- interpolateSheetLambda js SHEET_MATERIALS meanTemp material ;;
  let R_conv := 1 / h in
  let surfaceTempAt := surfaceTempAt ambientTemp mediumTemp lam R_conv in
  let minMm := 0.01 in
  let maxMm := 100 in
  let step := 0.01 in
  if surfaceTempAt maxMm <? targetSurfaceTemp then Return 50 else
  let lo := minMm in
  let hi := maxMm in
  hi' <- bisect fuel surfaceTempAt targetSurfaceTemp step lo hi ;;
  let roundedUp := Math_ceil js (hi' / step) * step in
  Return (js_Number js (toFixed js roundedUp 2)).

End Sheets.

(** The value [getFlatU] returns once its guards are passed. *)
Definition flatU_value (h thicknessMm lam : float) : float :=
  1 / (1 / h + (thicknessMm / 1000) / lam).

(** [x <= y] for every later [y], and for [x] itself: an executable check
    that a list of numbers is ascending. *)
Fixpoint ascendingb (l : list float) : bool :=
  match l with
  | [] => true
  | x :: rest => (x <=? x) && forallb (leb x) rest && ascendingb rest
  end.

(** A runtime whose library functions are not inspected, and a table with no
    material, on which the functions are run. *)
Definition opaque_builtins : Builtins :=
  {| js_String := fun _ => ""%string; js_Number := fun _ => nan;
     Math_pow := fun _ _ => nan; Math_max := fun _ _ => nan;
     Math_ceil := fun x => x; toFixed := fun _ _ => ""%string |}.

Definition no_materials : MaterialTable := fun _ => None.

End B64.

(** * Properties *)

(** ** Number primitives *)

Module JsFacts.

Lemma le_spec x y : Js.le x y = true <-> x <= y.
Proof. apply Qle_bool_iff. Qed.

Lemma le_false x y : Js.le x y = false <-> y < x.
Proof.
  unfold Js.le. split; intro H.
  - apply Qnot_le_lt. intro L. apply Qle_bool_iff in L. congruence.
  - destruct (Qle_bool x y) eqn:E; [|reflexivity].
    apply Qle_bool_iff in E. lra.
Qed.

Lemma lt_spec x y : Js.lt x y = true <-> x < y.
Proof.
  unfold Js.lt. rewrite negb_true_iff. apply (le_false y x).
Qed.

Lemma lt_false x y : Js.lt x y = false <-> y <= x.
Proof.
  unfold Js.lt. rewrite negb_false_iff. apply (le_spec y x).
Qed.

Lemma gt_spec x y : Js.gt x y = true <-> y < x.
Proof. apply lt_spec. Qed.

Lemma gt_false x y : Js.gt x y = false <-> x <= y.
Proof. apply lt_false. Qed.


Lemma ge_false x y : Js.ge x y = false <-> x < y.
Proof. apply le_false. Qed.


End JsFacts.

(** ** Key lookup and sorting of the anchor temperatures *)

Lemma lookup_compat (d : LambdaData) (k k' : Q) :
  k == k' -> lookup d k = lookup d k'.
Proof.
  intro E. unfold lookup. f_equal.
  induction d as [|[a b] d IH]; simpl; [reflexivity|].
  rewrite IH. replace (Qeq_bool a k') with (Qeq_bool a k); [reflexivity|].
  destruct (Qeq_bool a k) eqn:H1, (Qeq_bool a k') eqn:H2; try reflexivity.
  - apply Qeq_bool_iff in H1. apply Qeq_bool_neq in H2. exfalso. apply H2.
    rewrite H1. exact E.
  - apply Qeq_bool_iff in H2. apply Qeq_bool_neq in H1. exfalso. apply H1.
    rewrite H2. symmetry. exact E.
Qed.

Lemma lookup_In (d : LambdaData) (k l : Q) :
  lookup d k = Some l -> exists k', k' == k /\ In (k', l) d.
Proof.
  unfold lookup. induction d as [|[a b] d IH]; simpl; [discriminate|].
  destruct (Qeq_bool a k) eqn:E; simpl.
  - intro H. injection H as <-. exists a. split.
    + apply Qeq_bool_iff. exact E.
    + left. reflexivity.
  - intro H. destruct (IH H) as (k' & Hk & Hin). exists k'. auto.
Qed.



Lemma lookup_NoDup (d : LambdaData) (k l : Q) :
  NoDupA Qeq (keys d) -> In (k, l) d -> lookup d k = Some l.
Proof.
  unfold lookup, keys. induction d as [|[a b] d IH]; simpl; [tauto|].
  intros ND [E|Hin]; inversion ND as [|? ? Hnot ND']; subst.
  - injection E as -> ->.
    rewrite (proj2 (Qeq_bool_iff k k) (Qeq_refl k)). reflexivity.
  - destruct (Qeq_bool a k) eqn:E.
    + exfalso. apply Hnot. apply InA_alt. exists k. split.
      * apply Qeq_bool_iff. exact E.
      * change k with (fst (k, l)). apply in_map. exact Hin.
    + apply IH; assumption.
Qed.

Lemma insert_sorted_In (x y : Q) (l : list Q) :
  In y (insert_sorted x l) <-> y = x \/ In y l.
Proof.
  induction l as [|a l IH]; simpl.
  - intuition.
  - destruct (Js.le x a); simpl; [intuition|]. rewrite IH. intuition.
Qed.

Lemma sort_ascending_In (y : Q) (l : list Q) :
  In y (sort_ascending l) <-> In y l.
Proof.
  induction l as [|a l IH]; simpl; [tauto|].
  rewrite insert_sorted_In, IH. intuition.
Qed.

Lemma insert_sorted_ascending (x : Q) (l : list Q) :
  ascending l -> ascending (insert_sorted x l).
Proof.
  induction 1 as [|a l Hlb Hasc IH]; simpl.
  - constructor; [intros ? []|constructor].
  - destruct (Js.le x a) eqn:E.
    + apply JsFacts.le_spec in E. constructor.
      * intros y [<-|Hy]; [exact E|]. specialize (Hlb y Hy). lra.
      * constructor; assumption.
    + apply JsFacts.le_false in E. constructor; [|exact IH].
      intros y Hy. apply insert_sorted_In in Hy. destruct Hy as [->|Hy].
      * lra.
      * apply Hlb. exact Hy.
Qed.

Lemma sort_ascending_ascending (l : list Q) : ascending (sort_ascending l).
Proof.
  induction l as [|a l IH]; simpl.
  - constructor.
  - apply insert_sorted_ascending. exact IH.
Qed.

(** [temps[0]] is the least key. *)
Lemma sort_ascending_head (l : list Q) (t : Q) (rest : list Q) :
  sort_ascending l = t :: rest -> In t l /\ lower_bound t l.
Proof.
  intro E. split.
  - apply sort_ascending_In. rewrite E. left. reflexivity.
  - intros x Hx. apply sort_ascending_In in Hx.
    pose proof (sort_ascending_ascending l) as Hs. rewrite E in Hs, Hx.
    inversion Hs as [|? ? Hlb _]; subst.
    destruct Hx as [<-|Hx]; [lra | apply Hlb; exact Hx].
Qed.

Lemma sort_ascending_nil (l : list Q) : sort_ascending l = [] -> l = [].
Proof.
  destruct l as [|a l]; [reflexivity|]. intro E. exfalso.
  assert (H : In a (sort_ascending (a :: l))).
  { apply sort_ascending_In. left. reflexivity. }
  rewrite E in H. exact H.
Qed.

Lemma distinct_keys_NoDupA (l : list Q) :
  distinct_keys l = true -> NoDupA Qeq l.
Proof.
  induction l as [|k l IH]; simpl; [constructor|].
  intro H. apply andb_true_iff in H. destruct H as [H1 H2].
  constructor; [|apply IH; exact H2].
  intro Hin. apply InA_alt in Hin. destruct Hin as (y & Hy & Hin).
  apply negb_true_iff in H1.
  assert (E : existsb (Qeq_bool k) l = true).
  { apply existsb_exists. exists y. split; [exact Hin|].
    apply Qeq_bool_iff. exact Hy. }
  congruence.
Qed.


(** ** MaterialLambdaInterpolator *)

Section InterpolationFacts.

Variable SHEET_MATERIALS : MaterialTable.




End InterpolationFacts.

(** ** Results on the components *)

(** *** NominalThicknessRounder *)

Ltac nominal_cases :=
  unfold getNominalSheetThicknessRecommendation;
  repeat match goal with
    | |- context [if Js.gt ?a ?b then _ else _] =>
        let E := fresh "E" in
        destruct (Js.gt a b) eqn:E;
        [apply JsFacts.gt_spec in E | apply JsFacts.gt_false in E]
    end.

(** C1, as stated: the rounder maps 11 to 19, 7 to 13 and 4.99 to 6.  The
    middle value fails: 7 is not strictly above the breakpoint 7, so the
    rounder answers 9. *)
Lemma nominal_boundary_values_counterexample :
  ~ (getNominalSheetThicknessRecommendation 11 == 19 /\
     getNominalSheetThicknessRecommendation 7 == 13 /\
     getNominalSheetThicknessRecommendation 4.99 == 6).
Proof.
  intros (_ & H & _). vm_compute in H. discriminate H.
Qed.

(** C1, amended: the rounder maps 11 to 19, 7 to 9 and 4.99 to 6. *)
Theorem nominal_boundary_values :
  getNominalSheetThicknessRecommendation 11 = 19 /\
  getNominalSheetThicknessRecommendation 7 = 9 /\
  getNominalSheetThicknessRecommendation 4.99 = 6.
Proof. repeat split; reflexivity. Qed.

(** C10: the rounder only answers one of 6, 9, 13, 19, 25, 32, 40, 50; it
    never answers 10 nor anything above 50; and a larger argument never gets
    a smaller answer. *)
Theorem nominal_range_monotone (x : Q) :
  In (getNominalSheetThicknessRecommendation x) [6; 9; 13; 19; 25; 32; 40; 50] /\
  ~ getNominalSheetThicknessRecommendation x == 10 /\
  getNominalSheetThicknessRecommendation x <= 50 /\
  forall y, x <= y ->
    getNominalSheetThicknessRecommendation x <= getNominalSheetThicknessRecommendation y.
Proof.
  split; [|split; [|split]].
  - nominal_cases; simpl; tauto.
  - nominal_cases; intro H; vm_compute in H; discriminate H.
  - nominal_cases; lra.
  - intros y Hxy. nominal_cases; lra.
Qed.

Lemma nominal_range_monotone_witness :
  5 <= 12 /\
  getNominalSheetThicknessRecommendation 5 <= getNominalSheetThicknessRecommendation 12.
Proof.
  split; [lra|].
  apply (proj2 (proj2 (proj2 (nominal_range_monotone 5))) 12). lra.
Defined.

(** *** MaterialLambdaInterpolator: temperatures outside the anchors *)

(** No bracket is entered when [temp] lies on one side of all of [temps]. *)
Lemma interpolate_loop_outside (d : LambdaData) (temp : Q) (temps : list Q)
    (current : Q) :
  (forall t, In t temps -> temp < t) \/ (forall t, In t temps -> t < temp) ->
  interpolate_loop d temp temps current = Return current.
Proof.
  induction temps as [|t0 rest IH]; intro H; [reflexivity|].
  destruct rest as [|t1 rest']; [reflexivity|].
  cbn [interpolate_loop].
  replace (Js.ge temp t0 && Js.le temp t1) with false.
  - apply IH. destruct H as [H|H]; [left|right]; intros t Ht; apply H; right; exact Ht.
  - symmetry. apply andb_false_iff. destruct H as [H|H].
    + left. apply JsFacts.ge_false. apply H. left. reflexivity.
    + right. apply JsFacts.le_false. apply H. right. left. reflexivity.
Qed.

Section OutOfRange.

Variable SHEET_MATERIALS : MaterialTable.
Variables (material : string) (m : Material).
Hypothesis known : SHEET_MATERIALS material = Some m.
Hypothesis distinct : distinct_keys (keys (lambda m)) = true.

(** The lowest anchor and its conductivity. *)
Variables tlo llo : Q.
Hypothesis lowest_anchor : In (tlo, llo) (lambda m).
Hypothesis lowest : lower_bound tlo (keys (lambda m)).

(** Value of the variable [lambda] before the loop: the conductivity of the
    lowest anchor. *)
Lemma interpolate_outside (temp : Q) :
  (forall t, In t (keys (lambda m)) -> temp < t) \/
  (forall t, In t (keys (lambda m)) -> t < temp) ->
  interpolateSheetLambda SHEET_MATERIALS temp material = Return llo.
Proof.
  intro Hout. unfold interpolateSheetLambda. rewrite known.
  destruct (lookup (lambda m) temp) as [l|] eqn:El.
  - exfalso. destruct (lookup_In _ _ _ El) as (k & Hk & Hin).
    assert (Kin : In k (keys (lambda m))).
    { change k with (fst (k, l)). apply in_map. exact Hin. }
    destruct Hout as [H|H]; specialize (H k Kin); lra.
  - rewrite interpolate_loop_outside.
    + destruct (sort_ascending (keys (lambda m))) as [|t ts] eqn:Es.
      * apply sort_ascending_nil in Es.
        assert (Kin : In tlo (keys (lambda m))).
        { change tlo with (fst (tlo, llo)). apply in_map. exact lowest_anchor. }
        rewrite Es in Kin. destruct Kin.
      * destruct (sort_ascending_head _ _ _ Es) as [Tin Tlow].
        assert (Kin : In tlo (keys (lambda m))).
        { change tlo with (fst (tlo, llo)). apply in_map. exact lowest_anchor. }
        assert (E : t == tlo).
        { apply Qle_antisym; [apply Tlow; exact Kin | apply lowest; exact Tin]. }
        rewrite (lookup_compat _ _ _ E).
        rewrite (lookup_NoDup _ _ _ (distinct_keys_NoDupA _ distinct) lowest_anchor).
        reflexivity.
    + destruct Hout as [H|H]; [left|right]; intros t Ht; apply H;
        apply (proj1 (sort_ascending_In t _)); exact Ht.
Qed.

(** A temperature that is an anchor gets that anchor's conductivity. *)
Lemma interpolate_exact (t l : Q) :
  In (t, l) (lambda m) ->
  interpolateSheetLambda SHEET_MATERIALS t material = Return l.
Proof.
  intro Hin. unfold interpolateSheetLambda. rewrite known.
  rewrite (lookup_NoDup _ _ _ (distinct_keys_NoDupA _ distinct) Hin).
  reflexivity.
Qed.

End OutOfRange.

(** C2, as stated: with [(tlo, llo)] the lowest anchor and [thi] the highest
    anchor temperature of a known material, every temperature at or above
    [thi] gets [llo].  It fails at [thi] itself, which is an exact match. *)
Lemma interpolate_at_or_above_highest_counterexample :
  ~ (forall (tbl : MaterialTable) (material : string) (m : Material)
            (tlo llo thi temp : Q),
       tbl material = Some m ->
       distinct_keys (keys (lambda m)) = true ->
       In (tlo, llo) (lambda m) -> lower_bound tlo (keys (lambda m)) ->
       In thi (keys (lambda m)) -> upper_bound thi (keys (lambda m)) ->
       thi <= temp ->
       exists l, interpolateSheetLambda tbl temp material = Return l /\ l == llo).
Proof.
  intro H.
  destruct (H sample_materials "rubber"%string
              {| lambda := [(40, 0.040); (0, 0.034); (20, 0.036)] |}
              0 0.034 40 40) as (l & E & Hl).
  - reflexivity.
  - reflexivity.
  - simpl. tauto.
  - intros x Hx. simpl in Hx. decompose [or] Hx; subst; try lra; try contradiction.
  - simpl. tauto.
  - intros x Hx. simpl in Hx. decompose [or] Hx; subst; try lra; try contradiction.
  - lra.
  - vm_compute in E. injection E as <-. vm_compute in Hl. discriminate Hl.
Qed.

(** C2, amended: for a known material with lowest anchor [(tlo, llo)] and
    highest anchor [(thi, lhi)], every temperature strictly below [tlo] gets
    [llo], every temperature strictly above [thi] gets [llo] too (not
    [lhi]), and [thi] itself gets [lhi]. *)
Theorem interpolate_out_of_range
    (SHEET_MATERIALS : MaterialTable) (material : string) (m : Material)
    (tlo llo thi lhi : Q) :
  SHEET_MATERIALS material = Some m ->
  distinct_keys (keys (lambda m)) = true ->
  In (tlo, llo) (lambda m) -> lower_bound tlo (keys (lambda m)) ->
  In (thi, lhi) (lambda m) -> upper_bound thi (keys (lambda m)) ->
  (forall temp, temp < tlo ->
     interpolateSheetLambda SHEET_MATERIALS temp material = Return llo) /\
  (forall temp, thi < temp ->
     interpolateSheetLambda SHEET_MATERIALS temp material = Return llo) /\
  interpolateSheetLambda SHEET_MATERIALS thi material = Return lhi.
Proof.
  intros known distinct Ilo Hlo Ihi Hhi. repeat split.
  - intros temp Ht. apply (interpolate_outside _ _ _ known distinct _ _ Ilo Hlo).
    left. intros t Hin. specialize (Hlo t Hin). lra.
  - intros temp Ht. apply (interpolate_outside _ _ _ known distinct _ _ Ilo Hlo).
    right. intros t Hin. specialize (Hhi t Hin). lra.
  - apply (interpolate_exact _ _ _ known distinct). exact Ihi.
Qed.

Lemma interpolate_out_of_range_witness :
  interpolateSheetLambda sample_materials (-5) "rubber" = Return 0.034 /\
  interpolateSheetLambda sample_materials 60 "rubber" = Return 0.034 /\
  interpolateSheetLambda sample_materials 40 "rubber" = Return 0.040.
Proof.
  assert (lo : lower_bound 0 (keys [(40, 0.040); (0, 0.034); (20, 0.036)])).
  { intros x Hx. simpl in Hx. decompose [or] Hx; subst; try lra; try contradiction. }
  assert (hi : upper_bound 40 (keys [(40, 0.040); (0, 0.034); (20, 0.036)])).
  { intros x Hx. simpl in Hx. decompose [or] Hx; subst; try lra; try contradiction. }
  destruct (interpolate_out_of_range sample_materials "rubber"
              {| lambda := [(40, 0.040); (0, 0.034); (20, 0.036)] |}
              0 0.034 40 0.040 eq_refl eq_refl
              (or_intror (or_introl eq_refl)) lo (or_introl eq_refl) hi)
    as (Hbelow & Habove & Hat).
  split; [apply Hbelow; lra | split; [apply Habove; lra | exact Hat]].
Defined.

(** *** FlatUValueCalculator *)

Lemma Qdiv_pos (a b : Q) : 0 < a -> 0 < b -> 0 < a / b.
Proof.
  intros Ha Hb. apply Qlt_shift_div_l; [exact Hb | lra].
Qed.




(** Total resistance of the wall, positive on valid inputs. *)
Lemma resistance_pos (h t lam : Q) :
  0 < h -> 0 <= t -> 0 < lam -> 0 < 1 / h + (t / 1000) / lam.
Proof.
  intros Hh Ht Hl.
  assert (H1 : 0 < 1 / h) by (apply Qdiv_pos; lra).
  assert (H2 : 0 <= (t / 1000) / lam).
  { apply Qle_shift_div_l; [exact Hl|]. apply Qle_shift_div_l; lra. }
  lra.
Qed.


Lemma flatU_formula_pos (h t lam : Q) :
  0 < h -> 0 < t -> 0 < lam -> 0 < flatU_formula h t lam.
Proof.
  intros Hh Ht Hl. unfold flatU_formula. apply Qdiv_pos; [lra|].
  apply resistance_pos; lra.
Qed.


(** *** HeatLossEstimator *)






(** *** ThicknessRecommender *)





(** *** CondensationThicknessSolver: the surface temperature *)








Lemma surfaceTemp_value_compat (a m lam rc t t' : Q) :
  t == t' -> surfaceTemp_value a m lam rc t == surfaceTemp_value a m lam rc t'.
Proof.
  intro E. unfold surfaceTemp_value. rewrite E. reflexivity.
Qed.

(** *** CondensationThicknessSolver: bisection and rounding *)








(** The loop budget is an artefact of the model: once it suffices, a larger
    one gives the same result. *)
Lemma bisect_more_fuel (T : Q -> Outcome Q) (target step : Q) (fuel : nat) :
  forall (lo hi r : Q) (fuel' : nat),
    (fuel <= fuel')%nat ->
    bisect fuel T target step lo hi = Return r ->
    bisect fuel' T target step lo hi = Return r.
Proof.
  induction fuel as [|fuel IH]; intros lo hi r fuel' Hle.
  - destruct fuel'; cbn [bisect]; destruct (Js.gt (hi - lo) step);
      try discriminate; auto.
  - destruct fuel' as [|fuel']; [lia|].
    cbn [bisect]. destruct (Js.gt (hi - lo) step); [|auto].
    cbv zeta. destruct (T ((lo + hi) / 2)) as [tMid| | |]; cbn [bind];
      try discriminate.
    destruct (Js.ge tMid target); apply IH; lia.
Qed.

(** *** CondensationThicknessSolver: the result *)





(** The same failure inside the search range: with air at 25, a medium at 5
    and a dew point of 17 the solver returns 6.40 although 6.39 already
    reaches the target 17.3, because the final upper bound is rounded up
    from a bracket that is coarser than the 0.01 grid is fine. *)
Example minimum_thickness_above_grid_minimum :
  calculateMinimumSheetThickness sample_materials 14 25 5 17 "unknown" 9
    default_safetyMarginC = Return 6.40 /\
  exists v, surfaceTempAt 25 5 0.036 (1 / 9) 6.39 = Return v /\ 17 + 0.3 <= v.
Proof.
  split; [vm_compute; reflexivity|].
  eexists. split; [vm_compute; reflexivity|]. vm_compute. discriminate.
Qed.

(** * Further properties of the components *)

(** ** MaterialLambdaInterpolator: anchors and brackets *)




(** X1: at the temperature of any stored anchor the interpolator returns the
    stored conductivity itself, whatever the other anchors are. *)
Theorem interpolate_exact_anchor
    (SHEET_MATERIALS : MaterialTable) (material : string) (m : Material) (t l : Q) :
  SHEET_MATERIALS material = Some m ->
  distinct_keys (keys (lambda m)) = true ->
  In (t, l) (lambda m) ->
  interpolateSheetLambda SHEET_MATERIALS t material = Return l.
Proof.
  intros known distinct Hin. unfold interpolateSheetLambda. rewrite known.
  rewrite (lookup_NoDup _ _ _ (distinct_keys_NoDupA _ distinct) Hin). reflexivity.
Qed.

Lemma interpolate_exact_anchor_witness :
  interpolateSheetLambda sample_materials 20 "rubber" = Return 0.036.
Proof.
  apply (interpolate_exact_anchor sample_materials "rubber"
           {| lambda := [(40, 0.040); (0, 0.034); (20, 0.036)] |} 20 0.036
           eq_refl eq_refl).
  simpl. tauto.
Defined.





(** ** FlatUValueCalculator: validation order *)



(** ** ThicknessRecommender: monotonicity in the target *)





(** ** NominalThicknessRounder: rounding up and its cap *)

(** X11: the rounder never rounds down a minimum of at most 50 mm, and up to
    37.99 mm it leaves more than 1 mm of margin; above 50 mm it answers 50,
    which is less than the minimum it was given. *)
Theorem nominal_covers_up_to_50 (x : Q) :
  (x <= 50 -> x <= getNominalSheetThicknessRecommendation x) /\
  (x <= 37.99 -> x + 1 < getNominalSheetThicknessRecommendation x) /\
  (50 < x -> getNominalSheetThicknessRecommendation x = 50 /\
             getNominalSheetThicknessRecommendation x < x).
Proof.
  split; [|split].
  - intro H. nominal_cases; lra.
  - intro H. nominal_cases; lra.
  - intro H. nominal_cases; try lra. split; [reflexivity | lra].
Qed.

Lemma nominal_covers_up_to_50_witness :
  12.5 <= getNominalSheetThicknessRecommendation 12.5 /\
  12.5 + 1 < getNominalSheetThicknessRecommendation 12.5 /\
  getNominalSheetThicknessRecommendation 73 = 50 /\
  getNominalSheetThicknessRecommendation 73 < 73.
Proof.
  split; [|split].
  - apply (proj1 (nominal_covers_up_to_50 12.5)). lra.
  - apply (proj1 (proj2 (nominal_covers_up_to_50 12.5))). lra.
  - apply (proj2 (proj2 (nominal_covers_up_to_50 73))). lra.
Defined.

(** ** CondensationThicknessSolver: range and monotonicity *)








(** ** Solver and rounder together *)




(** * Properties of the binary64 embedding *)

Import PrimFloat.
#[local] Set Warnings "-inexact-float".
Local Open Scope float_scope.

(** ** Order of binary64 numbers *)

Lemma SFcompare_antisym (x y : SpecFloat.spec_float) (c : comparison) :
  SpecFloat.SFcompare x y = Some c -> SpecFloat.SFcompare y x = Some (CompOpp c).
Proof.
  destruct x as [sx|sx| |sx mx ex], y as [sy|sy| |sy my ey]; simpl;
    try discriminate;
    try (intro H; injection H as <-; try destruct sx; try destruct sy; reflexivity).
  intro H. injection H as <-. f_equal.
  rewrite (Z.compare_antisym ex ey).
  change (Pos.compare_cont Eq my mx) with (Pos.compare my mx).
  change (Pos.compare_cont Eq mx my) with (Pos.compare mx my).
  rewrite (Pos.compare_antisym mx my).
  destruct sx, sy; try reflexivity;
    destruct (ex ?= ey)%Z; simpl; try reflexivity;
    destruct (mx ?= my)%positive; reflexivity.
Qed.

(** [x < y] excludes [y <= x]. *)
Lemma ltb_leb_false (x y : float) : (x <? y) = true -> (y <=? x) = false.
Proof.
  rewrite FloatAxioms.ltb_spec, FloatAxioms.leb_spec.
  unfold SpecFloat.SFltb, SpecFloat.SFleb.
  destruct (SpecFloat.SFcompare (FloatOps.Prim2SF x) (FloatOps.Prim2SF y)) as [[| |]|] eqn:E;
    try discriminate.
  rewrite (SFcompare_antisym _ _ _ E). reflexivity.
Qed.

(** [x <= y] excludes [y < x]. *)
Lemma leb_ltb_false (x y : float) : (x <=? y) = true -> (y <? x) = false.
Proof.
  rewrite FloatAxioms.ltb_spec, FloatAxioms.leb_spec.
  unfold SpecFloat.SFltb, SpecFloat.SFleb.
  destruct (SpecFloat.SFcompare (FloatOps.Prim2SF x) (FloatOps.Prim2SF y)) as [[| |]|] eqn:E;
    try discriminate; rewrite (SFcompare_antisym _ _ _ E); reflexivity.
Qed.

(** ** The components *)

Lemma b64_getFlatU_value (h t lam : float) :
  (h <=? 0) = false -> (t <=? 0) = false -> (lam <=? 0) = false ->
  B64.getFlatU h t lam = B64.Return (B64.flatU_value h t lam).
Proof.
  intros Hh Ht Hl. unfold B64.getFlatU. rewrite Hh, Ht, Hl. reflexivity.
Qed.

Lemma b64_candidates_positive (c : float) :
  In c B64.candidates -> (c <=? 0) = false.
Proof.
  intro H. simpl in H. decompose [or] H; subst; try reflexivity. contradiction.
Qed.

Lemma b64_candidates_loop_find (h lam deltaT target : float) (cs : list float) :
  (h <=? 0) = false -> (lam <=? 0) = false ->
  (forall c, In c cs -> (c <=? 0) = false) ->
  B64.candidates_loop h lam deltaT target cs =
  B64.Return (find (fun t => B64.flatU_value h t lam * deltaT <=? target) cs).
Proof.
  intros Hh Hl. induction cs as [|t cs IH]; intro Hpos; [reflexivity|].
  cbn [B64.candidates_loop find].
  rewrite (b64_getFlatU_value h t lam Hh (Hpos t (or_introl eq_refl)) Hl).
  cbn [B64.bind].
  destruct (B64.flatU_value h t lam * deltaT <=? target); [reflexivity|].
  apply IH. intros c Hc. apply Hpos. right. exact Hc.
Qed.

(** In a list that passes the ascending check, the first element passing a
    test is below every element passing it. *)
Lemma b64_find_least (f : float -> bool) (cs : list float) (t : float) :
  B64.ascendingb cs = true -> find f cs = Some t ->
  In t cs /\ f t = true /\ forall c, In c cs -> f c = true -> (t <=? c) = true.
Proof.
  induction cs as [|x l IH]; simpl; [discriminate|].
  intro A. apply andb_true_iff in A. destruct A as [A Hasc].
  apply andb_true_iff in A. destruct A as [Hxx Hlb].
  rewrite forallb_forall in Hlb.
  destruct (f x) eqn:Fx.
  - intro E. injection E as <-. split; [left; reflexivity|]. split; [exact Fx|].
    intros c [<-|Hc] _; [exact Hxx | apply Hlb; exact Hc].
  - intro E. destruct (IH Hasc E) as (Hin & Ft & Hleast).
    split; [right; exact Hin|]. split; [exact Ft|].
    intros c [<-|Hc] Fc; [congruence | apply Hleast; assumption].
Qed.

(** The interpolator returns a number unless the material name is found on
    [Object.prototype]; then it throws a [TypeError]. *)
Lemma b64_interpolate_outcome (js : B64.Builtins) (tbl : B64.MaterialTable)
    (temp : float) (material : string) :
  (B64.get_material tbl material = B64.Inherited /\
   B64.interpolateSheetLambda js tbl temp material = B64.Throw B64.TypeError) \/
  (B64.get_material tbl material <> B64.Inherited /\
   exists lam, B64.interpolateSheetLambda js tbl temp material = B64.Return lam).
Proof.
  unfold B64.interpolateSheetLambda.
  destruct (B64.get_material tbl material) as [| |m].
  - right. split; [discriminate|]. eexists. reflexivity.
  - left. split; reflexivity.
  - right. split; [discriminate|]. cbv zeta.
    destruct (B64.get (B64.lambda m) (B64.js_String js temp)); eexists; reflexivity.
Qed.

Lemma b64_bisect_not_Throw (T : float -> float) (target step : float) (e : B64.Exn) :
  forall fuel lo hi, B64.bisect fuel T target step lo hi <> B64.Throw e.
Proof.
  induction fuel as [|fuel IH]; intros lo hi; cbn [B64.bisect];
    destruct (step <? hi - lo); try discriminate.
  cbv zeta. destruct (target <=? T ((lo + hi) / 2)); apply IH.
Qed.

(** ** ThicknessRecommender *)

(** C5: with [h > 0], and the conductivity interpolated at [ambientTemp]
    positive, the recommender walks the ascending catalog 6, 9, 10, 13, 19,
    25, 32, 40, 50 and returns the first, hence least, thickness whose flux
    [getFlatU(h, t, lambda) * |mediumTemp - ambientTemp|], as the program
    computes it, is at most the target; when none qualifies it returns 50;
    so a result other than 50 meets the target. *)
Theorem recommended_thickness_first_fit_b64
    (js : B64.Builtins) (SHEET_MATERIALS : B64.MaterialTable)
    (ambientTemp mediumTemp areaM2 : float) (material : string)
    (h targetHeatFluxWPerM2 lam : float) :
  B64.interpolateSheetLambda js SHEET_MATERIALS ambientTemp material
    = B64.Return lam ->
  (0 <? h) = true -> (0 <? lam) = true ->
  B64.candidates = [6; 9; 10; 13; 19; 25; 32; 40; 50] /\
  B64.ascendingb B64.candidates = true /\
  (forall c, In c B64.candidates ->
     B64.getFlatU h c lam = B64.Return (B64.flatU_value h c lam)) /\
  exists t,
    B64.getRecommendedSheetThickness js SHEET_MATERIALS ambientTemp mediumTemp
      areaM2 material h targetHeatFluxWPerM2 = B64.Return t /\
    In t B64.candidates /\
    let flux c := B64.flatU_value h c lam * abs (mediumTemp - ambientTemp) in
    (forall c, In c B64.candidates -> (flux c <=? targetHeatFluxWPerM2) = true ->
       (flux t <=? targetHeatFluxWPerM2) = true /\ (t <=? c) = true) /\
    ((forall c, In c B64.candidates -> (flux c <=? targetHeatFluxWPerM2) = false) ->
     t = 50) /\
    (t <> 50 -> (flux t <=? targetHeatFluxWPerM2) = true).
Proof.
  intros El Hh Hl.
  apply ltb_leb_false in Hh. apply ltb_leb_false in Hl.
  split; [reflexivity|]. split; [reflexivity|].
  split.
  { intros c Hc. apply b64_getFlatU_value; try assumption.
    apply b64_candidates_positive. exact Hc. }
  unfold B64.getRecommendedSheetThickness. rewrite El. cbn [B64.bind].
  rewrite (b64_candidates_loop_find h lam _ _ B64.candidates Hh Hl
             b64_candidates_positive).
  cbn [B64.bind].
  set (flux := fun c => B64.flatU_value h c lam * abs (mediumTemp - ambientTemp)).
  change (fun t => B64.flatU_value h t lam * abs (mediumTemp - ambientTemp)
                   <=? targetHeatFluxWPerM2)
    with (fun t => flux t <=? targetHeatFluxWPerM2).
  destruct (find (fun t => flux t <=? targetHeatFluxWPerM2) B64.candidates)
    as [t|] eqn:Ef.
  - destruct (b64_find_least _ _ _ (eq_refl : B64.ascendingb B64.candidates = true) Ef)
      as (Hin & Ft & Hleast).
    exists t. split; [reflexivity|]. split; [exact Hin|]. cbv zeta.
    split; [|split].
    + intros c Hc Fc. split; [exact Ft|]. apply Hleast; assumption.
    + intro Hall. pose proof (Hall t Hin) as N. subst flux. cbv beta in *. congruence.
    + intros _. exact Ft.
  - exists 50. split; [reflexivity|]. split; [simpl; tauto|]. cbv zeta.
    pose proof (find_none _ _ Ef) as Hnone. cbv beta in Hnone.
    split; [|split].
    + intros c Hc Fc. pose proof (Hnone c Hc) as N. subst flux. cbv beta in *. congruence.
    + intros _. reflexivity.
    + intro N. exfalso. apply N. reflexivity.
Qed.

Lemma recommended_thickness_first_fit_b64_witness :
  exists t,
    B64.getRecommendedSheetThickness B64.opaque_builtins B64.no_materials
      20 26.25 1 "unknown" 18 15 = B64.Return t /\
    In t B64.candidates.
Proof.
  destruct (recommended_thickness_first_fit_b64 B64.opaque_builtins B64.no_materials
              20 26.25 1 "unknown" 18 15
              0.036 eq_refl eq_refl eq_refl)
    as (_ & _ & _ & t & Et & Hin & _).
  exists t. split; assumption.
Defined.

(** At these arguments the exact flux at 13 mm is 15, the target; the
    program computes 15.000000000000002, rejects 13 mm and returns 19. *)
Example recommended_thickness_rounded_flux :
  B64.getRecommendedSheetThickness B64.opaque_builtins B64.no_materials
    20 26.25 1 "unknown" 18 15 = B64.Return 19.
Proof. vm_compute. reflexivity. Qed.




(** X8: the recommender fails in three ways only, in this order: a material
    name found on [Object.prototype] throws a [TypeError]; then [h <= 0]
    throws the message on [h]; then an interpolated conductivity that is
    [<= 0] throws the message on [lambda].  Otherwise it returns a thickness
    of the catalog. *)
Theorem recommended_failures_b64
    (js : B64.Builtins) (SHEET_MATERIALS : B64.MaterialTable)
    (ambientTemp mediumTemp areaM2 : float) (material : string)
    (h targetHeatFluxWPerM2 : float) :
  (B64.get_material SHEET_MATERIALS material = B64.Inherited /\
   B64.getRecommendedSheetThickness js SHEET_MATERIALS ambientTemp mediumTemp
     areaM2 material h targetHeatFluxWPerM2 = B64.Throw B64.TypeError) \/
  (B64.get_material SHEET_MATERIALS material <> B64.Inherited /\
   exists lam,
     B64.interpolateSheetLambda js SHEET_MATERIALS ambientTemp material
       = B64.Return lam /\
     ((h <=? 0) = true ->
      B64.getRecommendedSheetThickness js SHEET_MATERIALS ambientTemp mediumTemp
        areaM2 material h targetHeatFluxWPerM2 = B64.Throw B64.ErrH) /\
     ((h <=? 0) = false -> (lam <=? 0) = true ->
      B64.getRecommendedSheetThickness js SHEET_MATERIALS ambientTemp mediumTemp
        areaM2 material h targetHeatFluxWPerM2 = B64.Throw B64.ErrLambda) /\
     ((h <=? 0) = false -> (lam <=? 0) = false ->
      exists t,
        B64.getRecommendedSheetThickness js SHEET_MATERIALS ambientTemp mediumTemp
          areaM2 material h targetHeatFluxWPerM2 = B64.Return t /\
        In t B64.candidates)).
Proof.
  destruct (b64_interpolate_outcome js SHEET_MATERIALS ambientTemp material)
    as [[Hi Ei]|[Hown [lam El]]].
  - left. split; [exact Hi|].
    unfold B64.getRecommendedSheetThickness. rewrite Ei. reflexivity.
  - right. split; [exact Hown|]. exists lam. split; [exact El|].
    unfold B64.getRecommendedSheetThickness. rewrite El. cbn [B64.bind].
    split; [|split].
    + intro Hh. unfold B64.candidates. cbn [B64.candidates_loop].
      unfold B64.getFlatU at 1. rewrite Hh. reflexivity.
    + intros Hh Hl. unfold B64.candidates. cbn [B64.candidates_loop].
      unfold B64.getFlatU at 1. rewrite Hh, Hl.
      replace (6 <=? 0) with false by reflexivity. reflexivity.
    + intros Hh Hl.
      rewrite (b64_candidates_loop_find h lam _ _ B64.candidates Hh Hl
                 b64_candidates_positive).
      cbn [B64.bind].
      destruct (find _ B64.candidates) as [t|] eqn:Ef.
      * exists t. split; [reflexivity|]. apply find_some in Ef. tauto.
      * eexists. split; [reflexivity|]. simpl. tauto.
Qed.

(** ** HeatLossEstimator *)

(** X6: with area, thickness and [h] positive the estimator fails in two
    ways only: a material name found on [Object.prototype] throws a
    [TypeError], and a conductivity interpolated at [ambientTemp + 5] that is
    [<= 0] throws the message on [lambda] from inside [getFlatU]; otherwise
    it returns a result. *)
Theorem heat_loss_failures_b64
    (js : B64.Builtins) (SHEET_MATERIALS : B64.MaterialTable)
    (ambientTemp mediumTemp thicknessMm areaM2 : float) (material : string)
    (h costPerKWh : float) :
  (0 <? areaM2) = true -> (0 <? thicknessMm) = true -> (0 <? h) = true ->
  (B64.get_material SHEET_MATERIALS material = B64.Inherited /\
   B64.computeSheetHeatLoss js SHEET_MATERIALS ambientTemp mediumTemp thicknessMm
     areaM2 material h costPerKWh = B64.Throw B64.TypeError) \/
  (B64.get_material SHEET_MATERIALS material <> B64.Inherited /\
   exists lam,
     B64.interpolateSheetLambda js SHEET_MATERIALS (ambientTemp + 5) material
       = B64.Return lam /\
     ((lam <=? 0) = true ->
      B64.computeSheetHeatLoss js SHEET_MATERIALS ambientTemp mediumTemp
        thicknessMm areaM2 material h costPerKWh = B64.Throw B64.ErrLambda) /\
     ((lam <=? 0) = false ->
      exists r,
        B64.computeSheetHeatLoss js SHEET_MATERIALS ambientTemp mediumTemp
          thicknessMm areaM2 material h costPerKWh = B64.Return r /\
        B64.meanLambda r = lam /\ B64.U r = B64.flatU_value h thicknessMm lam)).
Proof.
  intros Ha Ht Hh.
  apply ltb_leb_false in Ha. apply ltb_leb_false in Ht. apply ltb_leb_false in Hh.
  unfold B64.computeSheetHeatLoss. rewrite Ha, Ht, Hh. cbv zeta.
  destruct (b64_interpolate_outcome js SHEET_MATERIALS (ambientTemp + 5) material)
    as [[Hi Ei]|[Hown [lam El]]].
  - left. split; [exact Hi|]. rewrite Ei. reflexivity.
  - right. split; [exact Hown|]. exists lam. split; [exact El|].
    rewrite El. cbn [B64.bind]. split.
    + intro Hl. unfold B64.getFlatU. rewrite Hh, Ht, Hl. reflexivity.
    + intro Hl. rewrite (b64_getFlatU_value h thicknessMm lam Hh Ht Hl).
      cbn [B64.bind]. eexists. split; [reflexivity|]. split; reflexivity.
Qed.

Lemma heat_loss_failures_b64_witness :
  B64.computeSheetHeatLoss B64.opaque_builtins B64.no_materials 25 55 13 1
    "toString" 9 5 = B64.Throw B64.TypeError.
Proof.
  destruct (heat_loss_failures_b64 B64.opaque_builtins B64.no_materials 25 55 13 1
              "toString" 9 5 eq_refl eq_refl eq_refl) as [[_ E]|[N _]].
  - exact E.
  - exfalso. apply N. reflexivity.
Defined.

(** ** FlatUValueCalculator *)




(** ** CondensationThicknessSolver *)

(** Past its three guards, with the interpolation done, the solver is the
    fallback test followed by the bisection and the rounding. *)
Lemma b64_minimum_thickness_unfold
    (js : B64.Builtins) (SHEET_MATERIALS : B64.MaterialTable) (fuel : nat)
    (ambientTemp mediumTemp dewPoint : float) (material : string)
    (h safetyMarginC lam : float) :
  (h <=? 0) = false -> (ambientTemp <=? dewPoint) = false ->
  (ambientTemp <? dewPoint + safetyMarginC) = false ->
  B64.interpolateSheetLambda js SHEET_MATERIALS ((ambientTemp + mediumTemp) / 2)
    material = B64.Return lam ->
  B64.calculateMinimumSheetThickness js SHEET_MATERIALS fuel ambientTemp mediumTemp
    dewPoint material h safetyMarginC =
  if B64.surfaceTempAt ambientTemp mediumTemp lam (1 / h) 100
     <? dewPoint + safetyMarginC
  then B64.Return 50
  else
    B64.bind
      (B64.bisect fuel (B64.surfaceTempAt ambientTemp mediumTemp lam (1 / h))
         (dewPoint + safetyMarginC) 0.01 0.01 100)
      (fun hi' =>
         B64.Return (B64.js_Number js
                       (B64.toFixed js (B64.Math_ceil js (hi' / 0.01) * 0.01) 2))).
Proof.
  intros Hh Hdew Htarget El. unfold B64.calculateMinimumSheetThickness.
  rewrite Hh, Hdew. cbv zeta. rewrite Htarget, El. reflexivity.
Qed.

(** C6: under the preconditions [h > 0], [dewPoint < ambientTemp] and
    [dewPoint + safetyMarginC <= ambientTemp], when the surface temperature
    the program computes at 100 mm is below [dewPoint + safetyMarginC], the
    solver returns 50, with any loop budget, zero included: no exception and
    no search. *)
Theorem minimum_thickness_fallback_b64
    (js : B64.Builtins) (SHEET_MATERIALS : B64.MaterialTable)
    (ambientTemp mediumTemp dewPoint : float) (material : string)
    (h safetyMarginC lam : float) :
  (0 <? h) = true -> (dewPoint <? ambientTemp) = true ->
  (dewPoint + safetyMarginC <=? ambientTemp) = true ->
  B64.interpolateSheetLambda js SHEET_MATERIALS ((ambientTemp + mediumTemp) / 2)
    material = B64.Return lam ->
  (B64.surfaceTempAt ambientTemp mediumTemp lam (1 / h) 100
   <? dewPoint + safetyMarginC) = true ->
  forall fuel,
    B64.calculateMinimumSheetThickness js SHEET_MATERIALS fuel ambientTemp
      mediumTemp dewPoint material h safetyMarginC = B64.Return 50.
Proof.
  intros Hh Hdew Htarget El Hlow fuel.
  rewrite (b64_minimum_thickness_unfold js _ fuel _ _ _ _ _ _ lam
             (ltb_leb_false _ _ Hh) (ltb_leb_false _ _ Hdew)
             (leb_ltb_false _ _ Htarget) El).
  rewrite Hlow. reflexivity.
Qed.

Lemma minimum_thickness_fallback_b64_witness :
  B64.calculateMinimumSheetThickness B64.opaque_builtins B64.no_materials 0
    25 (-150) 24 "unknown" 9 0.3 = B64.Return 50.
Proof.
  apply (minimum_thickness_fallback_b64 B64.opaque_builtins B64.no_materials
           25 (-150) 24 "unknown" 9 0.3 0.036); reflexivity.
Defined.

(** C7, as stated, in the part on the solver: whenever [dewPoint >=
    ambientTemp] or [dewPoint + safetyMarginC > ambientTemp] the solver
    raises PhysicallyImpossible.  With [h <= 0] as well, the check of [h]
    comes first and the error is InvalidInput. *)
Lemma error_contract_b64_counterexample :
  ~ (forall (js : B64.Builtins) (tbl : B64.MaterialTable) (fuel : nat)
            (ambientTemp mediumTemp dewPoint : float) (material : string)
            (h safetyMarginC : float),
       (ambientTemp <=? dewPoint) = true \/
       (ambientTemp <? dewPoint + safetyMarginC) = true ->
       B64.raises (B64.calculateMinimumSheetThickness js tbl fuel ambientTemp
                     mediumTemp dewPoint material h safetyMarginC)
                  PhysicallyImpossible).
Proof.
  intro H.
  destruct (H B64.opaque_builtins B64.no_materials 14%nat 20 5 20 "unknown"%string
              0 0.3) as (e & E & K).
  - left. reflexivity.
  - vm_compute in E. injection E as <-. discriminate K.
Qed.

(** C7, amended: [getFlatU], [computeSheetHeatLoss] and the solver raise
    InvalidInput whenever one of their parameters among [h], thickness and
    area is [<= 0]; the solver raises PhysicallyImpossible whenever [h > 0]
    and [dewPoint >= ambientTemp] or [dewPoint + safetyMarginC >
    ambientTemp], the sum being the binary64 sum the program computes.  The
    outcome is the exception for every runtime, table, material, loop budget
    and value of the other parameters: nothing computed from them is
    consulted and no result is returned. *)
Theorem error_contract_b64
    (js : B64.Builtins) (SHEET_MATERIALS : B64.MaterialTable) (fuel : nat)
    (ambientTemp mediumTemp thicknessMm areaM2 dewPoint : float)
    (material : string) (h lam costPerKWh safetyMarginC : float) :
  ((h <=? 0) = true \/ (thicknessMm <=? 0) = true ->
   B64.raises (B64.getFlatU h thicknessMm lam) InvalidInput) /\
  ((h <=? 0) = true \/ (thicknessMm <=? 0) = true \/ (areaM2 <=? 0) = true ->
   B64.raises (B64.computeSheetHeatLoss js SHEET_MATERIALS ambientTemp mediumTemp
                 thicknessMm areaM2 material h costPerKWh) InvalidInput) /\
  ((h <=? 0) = true ->
   B64.raises (B64.calculateMinimumSheetThickness js SHEET_MATERIALS fuel
                 ambientTemp mediumTemp dewPoint material h safetyMarginC)
              InvalidInput) /\
  ((0 <? h) = true ->
   (ambientTemp <=? dewPoint) = true \/
   (ambientTemp <? dewPoint + safetyMarginC) = true ->
   B64.raises (B64.calculateMinimumSheetThickness js SHEET_MATERIALS fuel
                 ambientTemp mediumTemp dewPoint material h safetyMarginC)
              PhysicallyImpossible).
Proof.
  split; [|split; [|split]].
  - intros Hbad. unfold B64.getFlatU.
    destruct (h <=? 0); [eexists; split; reflexivity|].
    destruct (thicknessMm <=? 0); [eexists; split; reflexivity|].
    destruct Hbad; discriminate.
  - intros Hbad. unfold B64.computeSheetHeatLoss.
    destruct (areaM2 <=? 0); [eexists; split; reflexivity|].
    destruct (thicknessMm <=? 0); [eexists; split; reflexivity|].
    destruct (h <=? 0); [eexists; split; reflexivity|].
    destruct Hbad as [H|[H|H]]; discriminate.
  - intros Hh. unfold B64.calculateMinimumSheetThickness. rewrite Hh.
    eexists. split; reflexivity.
  - intros Hh Hbad. unfold B64.calculateMinimumSheetThickness.
    rewrite (ltb_leb_false _ _ Hh).
    destruct (ambientTemp <=? dewPoint); [eexists; split; reflexivity|].
    cbv zeta.
    destruct (ambientTemp <? dewPoint + safetyMarginC);
      [eexists; split; reflexivity|].
    destruct Hbad; discriminate.
Qed.

Lemma error_contract_b64_witness :
  B64.raises (B64.getFlatU 0 13 0.036) InvalidInput /\
  B64.raises (B64.computeSheetHeatLoss B64.opaque_builtins B64.no_materials
                25 55 13 0 "unknown" 9 5) InvalidInput /\
  B64.raises (B64.calculateMinimumSheetThickness B64.opaque_builtins
                B64.no_materials 14 25 5 17 "unknown" 0 0.3) InvalidInput /\
  B64.raises (B64.calculateMinimumSheetThickness B64.opaque_builtins
                B64.no_materials 14 25 5 25 "unknown" 9 0.3) PhysicallyImpossible.
Proof.
  split; [|split; [|split]].
  - apply (proj1 (error_contract_b64 B64.opaque_builtins B64.no_materials 14
                    25 55 13 1 17 "unknown" 0 0.036 5 0.3)).
    left. reflexivity.
  - apply (proj1 (proj2 (error_contract_b64 B64.opaque_builtins B64.no_materials
                           14 25 55 13 0 17 "unknown" 9 0.036 5 0.3))).
    right. right. reflexivity.
  - apply (proj1 (proj2 (proj2 (error_contract_b64 B64.opaque_builtins
                                  B64.no_materials 14 25 5 13 1 17 "unknown"
                                  0 0.036 5 0.3)))).
    reflexivity.
  - apply (proj2 (proj2 (proj2 (error_contract_b64 B64.opaque_builtins
                                  B64.no_materials 14 25 5 13 1 25 "unknown"
                                  9 0.036 5 0.3)))).
    + reflexivity.
    + left. reflexivity.
Defined.

(** The guard on the target is on the rounded sum: with air at 1, a dew point
    of 0.5 and a margin one unit in the last place above 0.5 the exact sum
    exceeds 1, the binary64 sum is 1, and the solver does not throw. *)
Example target_guard_uses_rounded_sum :
  (1 <? 0.5 + next_up 0.5) = false /\
  B64.calculateMinimumSheetThickness B64.opaque_builtins B64.no_materials 14
    1 0 0.5 "unknown" 9 (next_up 0.5) = B64.Return 50.
Proof. split; vm_compute; reflexivity. Qed.

(** X12: the solver throws in exactly four situations, tested in this order:
    [h <= 0]; then [dewPoint >= ambientTemp]; then [dewPoint + safetyMarginC >
    ambientTemp] for the binary64 sum; then a material name found on
    [Object.prototype], which throws a [TypeError] in the interpolator.
    Nothing else makes it throw: not the medium temperature, not a NaN, not
    a failed search. *)
Theorem minimum_thickness_exceptions_b64
    (js : B64.Builtins) (SHEET_MATERIALS : B64.MaterialTable) (fuel : nat)
    (ambientTemp mediumTemp dewPoint : float) (material : string)
    (h safetyMarginC : float) (e : B64.Exn) :
  B64.calculateMinimumSheetThickness js SHEET_MATERIALS fuel ambientTemp mediumTemp
    dewPoint material h safetyMarginC = B64.Throw e <->
  ((h <=? 0) = true /\ e = B64.ErrH) \/
  ((h <=? 0) = false /\ (ambientTemp <=? dewPoint) = true /\
   e = B64.ErrDewPoint dewPoint ambientTemp) \/
  ((h <=? 0) = false /\ (ambientTemp <=? dewPoint) = false /\
   (ambientTemp <? dewPoint + safetyMarginC) = true /\
   e = B64.ErrTarget (dewPoint + safetyMarginC) ambientTemp) \/
  ((h <=? 0) = false /\ (ambientTemp <=? dewPoint) = false /\
   (ambientTemp <? dewPoint + safetyMarginC) = false /\
   B64.get_material SHEET_MATERIALS material = B64.Inherited /\
   e = B64.TypeError).
Proof.
  unfold B64.calculateMinimumSheetThickness.
  destruct (h <=? 0) eqn:G1.
  { split.
    - intro E. injection E as <-. left. split; reflexivity.
    - intros [[_ ->]|[[H _]|[[H _]|[H _]]]]; [reflexivity | | |]; discriminate H. }
  destruct (ambientTemp <=? dewPoint) eqn:G2.
  { split.
    - intro E. injection E as <-. right. left. repeat split; reflexivity.
    - intros [[H _]|[(_ & _ & ->)|[(_ & H & _)|(_ & H & _)]]];
        [discriminate H | reflexivity | discriminate H | discriminate H]. }
  cbv zeta.
  destruct (ambientTemp <? dewPoint + safetyMarginC) eqn:G3.
  { split.
    - intro E. injection E as <-. right. right. left. repeat split; reflexivity.
    - intros [[H _]|[(_ & H & _)|[(_ & _ & _ & ->)|(_ & _ & H & _)]]];
        [discriminate H | discriminate H | reflexivity | discriminate H]. }
  destruct (b64_interpolate_outcome js SHEET_MATERIALS ((ambientTemp + mediumTemp) / 2)
              material) as [[Hi Ei]|[Hown [lam El]]].
  - rewrite Ei. cbn [B64.bind]. split.
    + intro E. injection E as <-. right. right. right. repeat split; assumption.
    + intros [[H _]|[(_ & H & _)|[(_ & _ & H & _)|(_ & _ & _ & _ & ->)]]];
        [discriminate H | discriminate H | discriminate H | reflexivity].
  - rewrite El. cbn [B64.bind]. split.
    + intro E. exfalso.
      destruct (B64.surfaceTempAt ambientTemp mediumTemp lam (1 / h) 100
                <? dewPoint + safetyMarginC); [discriminate E|].
      destruct (B64.bisect fuel (B64.surfaceTempAt ambientTemp mediumTemp lam (1 / h))
                  (dewPoint + safetyMarginC) 0.01 0.01 100)
        as [r|e'|] eqn:Eb; cbn [B64.bind] in E; try discriminate E.
      exact (b64_bisect_not_Throw _ _ _ e' _ _ _ Eb).
    + intros [[H _]|[(_ & H & _)|[(_ & _ & H & _)|(_ & _ & _ & H & _)]]];
        [discriminate H | discriminate H | discriminate H | contradiction].
Qed.

Lemma minimum_thickness_exceptions_b64_witness :
  B64.calculateMinimumSheetThickness B64.opaque_builtins B64.no_materials 14
    25 5 17 "valueOf" 9 0.3 = B64.Throw B64.TypeError.
Proof.
  apply (proj2 (minimum_thickness_exceptions_b64 B64.opaque_builtins
                  B64.no_materials 14 25 5 17 "valueOf" 9 0.3 B64.TypeError)).
  right. right. right. repeat split; reflexivity.
Defined.
